(** * resolve-ioctl-val.c: the three-line constant printer

    The program includes <linux/fs.h> and <stdio.h> and consists of

      void main() {
        printf("FS_IOC_FSGETXATTR: 0x%x\n", FS_IOC_FSGETXATTR);
        printf("FS_IOC_FSSETXATTR: 0x%x\n", FS_IOC_FSSETXATTR);
        printf("FS_XFLAG_PROJINHERIT: 0x%x\n", FS_XFLAG_PROJINHERIT);
      }

    The embedding has three layers:
    - [Libc]: the part of the C library the program relies on, i.e. the
      [%x] conversion, the format-string interpreter behind printf, and the
      hosted environment (streams, files, environment, arguments);
    - [Prog]: programs as trees of library calls whose continuation
      receives the call's int result, with a big-step interpreter and a
      small-step relation;
    - [Resolve]: the program itself, with the three header constants as a
      [platform] record, since <linux/fs.h> is not part of the repository.

    The facts follow in [HexFacts] (the conversion and its reading),
    [ProgFacts] (the two semantics), [ResolveFacts] (the runs of main),
    [ResolveSpec] (the properties the specification states) and
    [ResolveMore] (what the output determines, its numerals, sizes). *)

From Stdlib Require Import ZArith String Ascii HexString List Bool Lia.
Import ListNotations.

Local Open Scope string_scope.
Local Open Scope Z_scope.

(** The newline character the C source writes as [\n]. *)
Definition nl : string := String "010"%char EmptyString.

(* ================================================================== *)
(** ** The C library as far as the program uses it *)

Module Libc.

(** [unsigned int] on every Linux ABI. *)
Definition UINT_BITS : Z := 32.

(** What [va_arg(ap, unsigned int)] yields for an integer argument: the
    value reduced to the width of [unsigned int]. *)
Definition to_uint (v : Z) : Z := v mod 2 ^ UINT_BITS.

(** The digit table "0123456789abcdef" of the [x] conversion. *)
Definition hex_digit (d : Z) : ascii :=
  if d <? 10 then ascii_of_N (Z.to_N (48 + d)) else ascii_of_N (Z.to_N (87 + d)).

(** The conversion loop
      do { *--p = digits[v % 16]; } while ((v /= 16) != 0);
    An [unsigned int] has at most [UINT_BITS / 4] hexadecimal digits, which
    is the fuel [fmt_x] gives it. *)
Fixpoint hex_loop (fuel : nat) (v : Z) (acc : string) : string :=
  match fuel with
  | O => acc
  | S fuel' =>
      let acc' := String (hex_digit (v mod 16)) acc in
      if v / 16 =? 0 then acc' else hex_loop fuel' (v / 16) acc'
  end.

(** The [%x] conversion without flags, width or precision. *)
Definition fmt_x (v : Z) : string := hex_loop 8 (to_uint v) "".

(** printf's format interpreter, for the directives [%x] and [%%].  Any
    other directive, and a [%x] without an argument left, is outside the
    model ([None]).  Excess arguments are ignored, as in C. *)
Fixpoint format (fmt : string) (args : list Z) : option string :=
  match fmt with
  | EmptyString => Some EmptyString
  | String c rest =>
      if Ascii.eqb c "%" then
        match rest with
        | EmptyString => None
        | String d rest' =>
            if Ascii.eqb d "x" then
              match args with
              | a :: args' => option_map (append (fmt_x a)) (format rest' args')
              | [] => None
              end
            else if Ascii.eqb d "%" then option_map (String "%") (format rest' args)
            else None
        end
      else option_map (String c) (format rest args)
  end.

(** The two standard streams a program can print to. *)
Inductive stream : Type := Stdout | Stderr.

(** The library calls of the model: [printf (fmt, ...)] is
    [fprintf (stdout, fmt, ...)]. *)
Inductive call : Type :=
  | Fprintf (f : stream) (fmt : string) (args : list Z).

Definition call_stream (c : call) : stream :=
  match c with Fprintf f _ _ => f end.

(** The hosted environment of a process.  The two stream fields hold what
    the program has written to the stream: stdio may keep the text of a
    call in the stream's buffer (it does for a file or a pipe) and deliver
    it when the process exits, so the fields say what the descriptor has
    received once the run is complete, not at each call's return. *)
Record host : Type := mkHost {
  h_stdout : string;                    (* bytes written to standard output *)
  h_stderr : string;                    (* bytes written to standard error *)
  h_files : list (string * string);     (* the file system: path, content *)
  h_environ : list (string * string);   (* environment variables *)
  h_argv : list string                  (* command line *)
}.

Definition write_stream (f : stream) (s : string) (h : host) : host :=
  match f with
  | Stdout => mkHost (h_stdout h ++ s) (h_stderr h) (h_files h) (h_environ h) (h_argv h)
  | Stderr => mkHost (h_stdout h) (h_stderr h ++ s) (h_files h) (h_environ h) (h_argv h)
  end.

(** A working C library: fprintf writes the formatted text to the stream
    and returns the number of bytes; a format outside the model writes
    nothing and returns -1.  The text is in the host's field from the call
    on; the descriptor has it by the end of the run. *)
Definition libc (c : call) (h : host) : host * Z :=
  match c with
  | Fprintf f fmt args =>
      match format fmt args with
      | Some s => (write_stream f s h, Z.of_nat (String.length s))
      | None => (h, -1)
      end
  end.

(** Standard output on a closed descriptor, unbuffered (setvbuf with
    _IONBF, or stdbuf -o0): fprintf tries the write at once, the write
    fails, and the call returns -1; standard error still works. *)
Definition libc_closed_unbuffered (c : call) (h : host) : host * Z :=
  match call_stream c with
  | Stdout => (h, -1)
  | Stderr => libc c h
  end.

(** Standard output on a closed descriptor with stdio's default buffering:
    a text that fits the buffer only goes there, so fprintf returns what
    it returns on a working stream; the write is tried when the process
    exits, fails then, and nothing is delivered. *)
Definition libc_closed_buffered (c : call) (h : host) : host * Z :=
  match call_stream c with
  | Stdout => (h, snd (libc c h))
  | Stderr => libc c h
  end.

(** exit() reports the low eight bits of its argument. *)
Definition wait_status (r : Z) : Z := Z.land r 255.

(** *** The reading side, used to state what the digits mean *)

Definition digit_value (c : ascii) : option Z :=
  let n := Z.of_N (N_of_ascii c) in
  if (48 <=? n) && (n <=? 57) then Some (n - 48)
  else if (97 <=? n) && (n <=? 102) then Some (n - 87)
  else None.

Fixpoint hex_value_from (acc : Z) (s : string) : option Z :=
  match s with
  | EmptyString => Some acc
  | String c s' =>
      match digit_value c with
      | Some d => hex_value_from (16 * acc + d) s'
      | None => None
      end
  end.

(** The number a non-empty string of lowercase hexadecimal digits denotes. *)
Definition hex_value (s : string) : option Z :=
  match s with
  | EmptyString => None
  | _ => hex_value_from 0 s
  end.

(** No leading zero-padding: the only numeral starting with 0 is "0". *)
Definition unpadded (s : string) : bool :=
  match s with
  | EmptyString => false
  | String c EmptyString => true
  | String c _ => negb (Ascii.eqb c "0")
  end.

(** [s] is a lowercase hexadecimal numeral of [v] without padding. *)
Definition lower_hex_of (v : Z) (s : string) : Prop :=
  hex_value s = Some v /\ unpadded s = true.

(** Splitting a text at newlines: the complete lines, and what follows the
    last newline. *)
Fixpoint split_lines (s : string) : list string * string :=
  match s with
  | EmptyString => ([], EmptyString)
  | String c s' =>
      let '(ls, rest) := split_lines s' in
      if Ascii.eqb c "010" then (EmptyString :: ls, rest)
      else match ls with
           | [] => ([], String c rest)
           | l :: ls' => (String c l :: ls', rest)
           end
  end.

(** The text has no newline character. *)
Fixpoint no_newline (s : string) : bool :=
  match s with
  | EmptyString => true
  | String c s' => negb (Ascii.eqb c "010") && no_newline s'
  end.

End Libc.

(* ================================================================== *)
(** ** Programs over the library *)

Module Prog.
Import Libc.

(** A C function body seen from outside: it returns, or it makes a library
    call and goes on with the int the call returned. *)
Inductive prog (A : Type) : Type :=
  | Ret (a : A)
  | Call (c : call) (k : Z -> prog A).

Arguments Ret {A} a.
Arguments Call {A} c k.

Fixpoint bind {A B : Type} (m : prog A) (f : A -> prog B) : prog B :=
  match m with
  | Ret a => f a
  | Call c k => Call c (fun r => bind (k r) f)
  end.

(** The expression [printf (fmt, args...)], whose value is printf's result. *)
Definition printf (fmt : string) (args : list Z) : prog Z :=
  Call (Fprintf Stdout fmt args) Ret.

(** The expression statement [e;]: the value of [e] is discarded. *)
Notation "e ;; rest" := (bind e (fun _ => rest))
  (at level 61, right associativity).

(** One observable event: the call made and the int it returned. *)
Definition event : Type := call * Z.

(** The outcome of a run: the returned value, the final world, the events. *)
Record outcome (W A : Type) : Type := mkOutcome {
  o_value : A;
  o_world : W;
  o_trace : list event
}.

Arguments mkOutcome {W A} _ _ _.
Arguments o_value {W A} _.
Arguments o_world {W A} _.
Arguments o_trace {W A} _.

Section Semantics.

(** The world the program runs in, and how it answers a call. *)
Context {W : Type} (handle : call -> W -> W * Z).

Fixpoint interp {A : Type} (m : prog A) (w : W) : outcome W A :=
  match m with
  | Ret a => mkOutcome a w []
  | Call c k =>
      let '(w', r) := handle c w in
      let o := interp (k r) w' in
      mkOutcome (o_value o) (o_world o) ((c, r) :: o_trace o)
  end.

(** The same runs, one call at a time. *)
Inductive step {A : Type} : prog A * W -> event -> prog A * W -> Prop :=
  | step_call c k w w' r :
      handle c w = (w', r) ->
      step (Call c k, w) (c, r) (k r, w').

Inductive steps {A : Type} : prog A * W -> list event -> prog A * W -> Prop :=
  | steps_nil cfg : steps cfg [] cfg
  | steps_cons cfg e cfg' t cfg'' :
      step cfg e cfg' -> steps cfg' t cfg'' -> steps cfg (e :: t) cfg''.

(** A configuration is final when the body has returned. *)
Definition final {A : Type} (cfg : prog A * W) : Prop :=
  exists a, fst cfg = Ret a.

End Semantics.

(** A body is straight-line when no continuation looks at the result of
    the call before it. *)
Inductive straight_line {A : Type} : prog A -> Prop :=
  | sl_ret a : straight_line (Ret a)
  | sl_call c k :
      (forall r r', k r = k r') ->
      straight_line (k 0) ->
      straight_line (Call c k).

(** The number of calls on the path the results [rs] select ([0] once the
    list is exhausted). *)
Fixpoint calls_along {A : Type} (m : prog A) (rs : list Z) : nat :=
  match m with
  | Ret _ => O
  | Call _ k =>
      match rs with
      | [] => S (calls_along (k 0) [])
      | r :: rs' => S (calls_along (k r) rs')
      end
  end.

(** The status of a process whose main is declared <<void>>.  ISO C
    (5.1.2.2.3) leaves it unspecified when the return type of main is not
    int.  gcc, with which the source's header comment builds the program,
    adds the implicit [return 0] to an int main only: a void main returns
    with the integer return register as the last call left it, and the
    start-up code passes that register to exit().  So the status is the
    result of the last call; with no call made the register holds what the
    start-up code left there ([None]). *)
Definition void_main_status (t : list event) : option Z :=
  match rev t with
  | [] => None
  | (_, r) :: _ => Some (wait_status r)
  end.

End Prog.

(* ================================================================== *)
(** ** The program *)

Module Resolve.
Import Libc Prog.

(** The constants <linux/fs.h> supplies at compile time. *)
Record platform : Type := mkPlatform {
  FS_IOC_FSGETXATTR : Z;
  FS_IOC_FSSETXATTR : Z;
  FS_XFLAG_PROJINHERIT : Z
}.

(** A value an [unsigned int] can hold, which is what [%x] takes. *)
Definition uint_const (v : Z) : Prop := 0 <= v < 2 ^ UINT_BITS.

Definition uint_platform (p : platform) : Prop :=
  uint_const (FS_IOC_FSGETXATTR p) /\
  uint_const (FS_IOC_FSSETXATTR p) /\
  uint_const (FS_XFLAG_PROJINHERIT p).

(** The values of the scenario in the specification. *)
Definition scenario : platform := mkPlatform 0x5431 0x5432 0x00000200.

(** The values of Linux's own header: _IOR('X', 31, struct fsxattr),
    _IOW('X', 32, struct fsxattr) with a 28-byte struct, and 0x00000200. *)
Definition linux_fs_h : platform := mkPlatform 0x801c581f 0x401c5820 0x00000200.

Definition fmt_getxattr : string := "FS_IOC_FSGETXATTR: 0x%x" ++ nl.
Definition fmt_setxattr : string := "FS_IOC_FSSETXATTR: 0x%x" ++ nl.
Definition fmt_projinherit : string := "FS_XFLAG_PROJINHERIT: 0x%x" ++ nl.

Section Main.

Variable p : platform.

(** <<void main() { printf(...); printf(...); printf(...); }>> *)
Definition main : prog unit :=
  printf fmt_getxattr [FS_IOC_FSGETXATTR p] ;;
  printf fmt_setxattr [FS_IOC_FSSETXATTR p] ;;
  printf fmt_projinherit [FS_XFLAG_PROJINHERIT p] ;;
  Ret tt.

(** The three calls of [main], in program order. *)
Definition main_calls : list call :=
  [ Fprintf Stdout fmt_getxattr [FS_IOC_FSGETXATTR p];
    Fprintf Stdout fmt_setxattr [FS_IOC_FSSETXATTR p];
    Fprintf Stdout fmt_projinherit [FS_XFLAG_PROJINHERIT p] ].

(** A run of [main] on a working C library. *)
Definition run (h : host) : outcome host unit := interp libc main h.

(** The process: the start-up code receives the command line and the
    environment from the kernel, calls [main] and exits. *)
Definition start (argv : list string) (envp : list (string * string))
    (h : host) : outcome host unit :=
  run (mkHost (h_stdout h) (h_stderr h) (h_files h) envp argv).

(** The status the process exits with: [main] is a void main. *)
Definition exit_status (o : outcome host unit) : option Z :=
  void_main_status (o_trace o).

(** The line the specification describes for a constant: its name, a
    colon and a space, [0x], the digits, a newline. *)
Definition line (name digits : string) : string :=
  name ++ ": 0x" ++ digits ++ nl.

End Main.

(** A freshly started process: nothing printed yet. *)
Definition fresh : host := mkHost "" "" [] [] [].

(** A process started later: earlier output, files, an environment. *)
Definition busy : host :=
  mkHost "earlier output" "earlier diagnostics" [("/etc/projid", "1:42")]
         [("LANG", "C"); ("HOME", "/root")] ["./resolve-ioctl-val"; "--help"].


End Resolve.

(* ================================================================== *)
(** ** The [%x] conversion and the numerals it writes *)

Module HexFacts.
Import Libc.

Lemma append_assoc (a b c : string) : ((a ++ b) ++ c)%string = (a ++ (b ++ c))%string.
Proof. induction a as [|x a IH]; simpl; [reflexivity | now rewrite IH]. Qed.

Lemma append_nil_r (a : string) : (a ++ "")%string = a.
Proof. induction a as [|x a IH]; simpl; [reflexivity | now rewrite IH]. Qed.

Lemma length_append (a b : string) :
  String.length (a ++ b) = (String.length a + String.length b)%nat.
Proof. induction a as [|x a IH]; simpl; [reflexivity | now rewrite IH]. Qed.

Lemma append_inv_head (a b c : string) : (a ++ b)%string = (a ++ c)%string -> b = c.
Proof. induction a as [|x a IH]; simpl; intros E; [exact E | injection E; auto]. Qed.

(** Each of the sixteen digit characters reads back as its index. *)
Lemma digit_value_hex_digit (d : Z) :
  0 <= d < 16 -> digit_value (hex_digit d) = Some d.
Proof.
  intros Hd.
  assert (Hcases : d = 0 \/ d = 1 \/ d = 2 \/ d = 3 \/ d = 4 \/ d = 5 \/ d = 6 \/
                   d = 7 \/ d = 8 \/ d = 9 \/ d = 10 \/ d = 11 \/ d = 12 \/
                   d = 13 \/ d = 14 \/ d = 15) by lia.
  repeat (destruct Hcases as [-> | Hcases]; [reflexivity |]).
  subst d; reflexivity.
Qed.

Lemma digit_value_cases (c : ascii) (d : Z) :
  digit_value c = Some d ->
  let n := Z.of_N (N_of_ascii c) in
  (48 <= n <= 57 /\ d = n - 48) \/ (97 <= n <= 102 /\ d = n - 87).
Proof.
  unfold digit_value. cbv zeta.
  set (n := Z.of_N (N_of_ascii c)).
  destruct ((48 <=? n) && (n <=? 57)) eqn:E1.
  - intros [= <-]. apply andb_true_iff in E1. left. lia.
  - destruct ((97 <=? n) && (n <=? 102)) eqn:E2; [|discriminate].
    intros [= <-]. apply andb_true_iff in E2. right. lia.
Qed.

Lemma digit_value_range (c : ascii) (d : Z) :
  digit_value c = Some d -> 0 <= d < 16.
Proof. intros H. apply digit_value_cases in H. cbv zeta in H. lia. Qed.

(** Two digit characters with the same value are the same character. *)
Lemma digit_value_inj (c c' : ascii) (d : Z) :
  digit_value c = Some d -> digit_value c' = Some d -> c = c'.
Proof.
  intros H H'. apply digit_value_cases in H, H'. cbv zeta in H, H'.
  assert (E : N_of_ascii c = N_of_ascii c') by lia.
  rewrite <- (ascii_N_embedding c), <- (ascii_N_embedding c'). now rewrite E.
Qed.

Lemma hex_digit_zero (d : Z) : 0 <= d < 16 -> hex_digit d = "0"%char -> d = 0.
Proof.
  intros Hd E. pose proof (digit_value_hex_digit d Hd) as V.
  rewrite E in V. now injection V.
Qed.

(** Reading what the conversion loop wrote in front of [acc] continues from
    the converted value. *)
Lemma hex_value_from_loop (fuel : nat) : forall v acc,
  0 <= v < 16 ^ Z.of_nat fuel ->
  hex_value_from 0 (hex_loop fuel v acc) = hex_value_from v acc.
Proof.
  induction fuel as [|fuel IH]; intros v acc Hv.
  - simpl in *. replace v with 0 by lia. reflexivity.
  - rewrite Nat2Z.inj_succ, Z.pow_succ_r in Hv by lia.
    assert (Hm : 0 <= v mod 16 < 16) by (apply Z.mod_pos_bound; lia).
    assert (Hd : v = 16 * (v / 16) + v mod 16) by (apply Z.div_mod; lia).
    cbn [hex_loop]. destruct (v / 16 =? 0) eqn:E.
    + apply Z.eqb_eq in E. cbn [hex_value_from].
      rewrite digit_value_hex_digit by exact Hm.
      f_equal. lia.
    + rewrite IH.
      * cbn [hex_value_from]. rewrite digit_value_hex_digit by exact Hm.
        f_equal. lia.
      * split; [apply Z.div_pos; lia | apply Z.div_lt_upper_bound; lia].
Qed.

Lemma hex_loop_cons (fuel : nat) : forall v acc,
  exists c rest, hex_loop (S fuel) v acc = String c rest.
Proof.
  induction fuel as [|fuel IH]; intros v acc.
  - cbn [hex_loop]. destruct (v / 16 =? 0); eauto.
  - change (hex_loop (S (S fuel)) v acc)
      with (let acc' := String (hex_digit (v mod 16)) acc in
            if v / 16 =? 0 then acc' else hex_loop (S fuel) (v / 16) acc').
    cbv zeta. destruct (v / 16 =? 0); eauto.
Qed.

(** The loop stops at the most significant non-zero digit. *)
Lemma hex_loop_leading (fuel : nat) : forall v acc,
  0 < v < 16 ^ Z.of_nat fuel ->
  exists c rest, hex_loop fuel v acc = String c rest /\ c <> "0"%char.
Proof.
  induction fuel as [|fuel IH]; intros v acc Hv.
  - simpl in Hv. lia.
  - rewrite Nat2Z.inj_succ, Z.pow_succ_r in Hv by lia.
    assert (Hm : 0 <= v mod 16 < 16) by (apply Z.mod_pos_bound; lia).
    assert (Hd : v = 16 * (v / 16) + v mod 16) by (apply Z.div_mod; lia).
    cbn [hex_loop]. destruct (v / 16 =? 0) eqn:E.
    + apply Z.eqb_eq in E. eexists _, _. split; [reflexivity|].
      intros Z0. apply hex_digit_zero in Z0; lia.
    + apply Z.eqb_neq in E. apply IH.
      assert (0 <= v / 16) by (apply Z.div_pos; lia).
      split; [lia | apply Z.div_lt_upper_bound; lia].
Qed.

(** The conversion agrees with the standard library's hexadecimal printer
    on the values of Linux's header and of the scenario. *)
Example fmt_x_getxattr_linux :
  ("0x" ++ fmt_x 0x801c581f)%string = HexString.of_Z 0x801c581f.
Proof. reflexivity. Qed.

Example fmt_x_setxattr_linux :
  ("0x" ++ fmt_x 0x401c5820)%string = HexString.of_Z 0x401c5820.
Proof. reflexivity. Qed.

Example fmt_x_projinherit :
  ("0x" ++ fmt_x 0x00000200)%string = HexString.of_Z 0x200.
Proof. reflexivity. Qed.

Example fmt_x_scenario :
  ("0x" ++ fmt_x 0x5431)%string = HexString.of_Z 0x5431 /\
  ("0x" ++ fmt_x 0x5432)%string = HexString.of_Z 0x5432.
Proof. split; reflexivity. Qed.

(** A negative int is printed as its two's complement, and zero as one
    digit. *)
Example fmt_x_minus_one : fmt_x (-1) = "ffffffff"%string.
Proof. reflexivity. Qed.

Example fmt_x_zero : fmt_x 0 = "0"%string.
Proof. reflexivity. Qed.

Lemma to_uint_range (v : Z) : 0 <= to_uint v < 16 ^ 8.
Proof. unfold to_uint, UINT_BITS. apply Z.mod_pos_bound. reflexivity. Qed.

Lemma to_uint_id (v : Z) : 0 <= v < 2 ^ UINT_BITS -> to_uint v = v.
Proof. intros H. unfold to_uint. now apply Z.mod_small. Qed.

(** [%x] writes a lowercase hexadecimal numeral of the argument taken as
    an [unsigned int], without padding. *)
Lemma fmt_x_lower_hex (v : Z) : lower_hex_of (to_uint v) (fmt_x v).
Proof.
  pose proof (to_uint_range v) as R. unfold fmt_x, lower_hex_of.
  destruct (hex_loop_cons 7 (to_uint v) "") as (c & rest & E).
  split.
  - rewrite E. unfold hex_value. rewrite <- E.
    now rewrite (hex_value_from_loop 8) by exact R.
  - destruct (Z.eq_dec (to_uint v) 0) as [Z0 | NZ].
    + rewrite Z0. reflexivity.
    + destruct (hex_loop_leading 8 (to_uint v) "") as (c' & rest' & E' & Hc);
        [change (Z.of_nat 8) with 8; lia|].
      rewrite E'. simpl. destruct rest'; [reflexivity|].
      apply negb_true_iff, Ascii.eqb_neq, Hc.
Qed.

(** Reading with a carried-in prefix value shifts that prefix by the number
    of digits read. *)
Lemma hex_value_from_shift (s : string) : forall a,
  hex_value_from a s =
  option_map (fun w => a * 16 ^ Z.of_nat (String.length s) + w) (hex_value_from 0 s).
Proof.
  induction s as [|c s IH]; intros a.
  - simpl. f_equal. lia.
  - cbn [hex_value_from String.length]. destruct (digit_value c) as [d|]; [|reflexivity].
    rewrite (IH (16 * a + d)), (IH (16 * 0 + d)).
    destruct (hex_value_from 0 s) as [w|]; [|reflexivity].
    cbn [option_map]. f_equal. rewrite Nat2Z.inj_succ, Z.pow_succ_r by lia. ring.
Qed.

Lemma hex_value_from_bound (s : string) : forall w,
  hex_value_from 0 s = Some w -> 0 <= w < 16 ^ Z.of_nat (String.length s).
Proof.
  induction s as [|c s IH]; intros w.
  - simpl. intros [= <-]. lia.
  - cbn [hex_value_from String.length].
    destruct (digit_value c) as [d|] eqn:D; [|discriminate].
    rewrite hex_value_from_shift.
    destruct (hex_value_from 0 s) as [w1|]; [|discriminate].
    cbn [option_map]. intros [= <-].
    specialize (IH w1 eq_refl). apply digit_value_range in D.
    rewrite Nat2Z.inj_succ, Z.pow_succ_r by lia. nia.
Qed.

(** Positional notation is injective on numerals of one length. *)
Lemma hex_value_from_inj (s : string) : forall s' v,
  String.length s = String.length s' ->
  hex_value_from 0 s = Some v -> hex_value_from 0 s' = Some v -> s = s'.
Proof.
  induction s as [|c s IH]; intros [|c' s'] v L; try discriminate L.
  - reflexivity.
  - injection L as L. cbn [hex_value_from].
    destruct (digit_value c) as [d|] eqn:D; [|discriminate].
    destruct (digit_value c') as [d'|] eqn:D'; [|discriminate].
    rewrite (hex_value_from_shift s), (hex_value_from_shift s'), <- L.
    destruct (hex_value_from 0 s) as [w|] eqn:E; [|discriminate].
    destruct (hex_value_from 0 s') as [w'|] eqn:E'; [|discriminate].
    cbn [option_map]. intros [= <-] [= V].
    pose proof (hex_value_from_bound s w E) as B.
    pose proof (hex_value_from_bound s' w' E') as B'. rewrite <- L in B'.
    apply digit_value_range in D as R. apply digit_value_range in D' as R'.
    assert (d = d') by nia. subst d'.
    assert (w = w') by nia. subst w'.
    f_equal; [exact (digit_value_inj c c' d D D') | exact (IH s' w L eq_refl E')].
Qed.

(** An unpadded numeral of two digits or more starts with a non-zero digit,
    which bounds its value from below. *)
Lemma unpadded_value_bounds (s : string) (v : Z) :
  unpadded s = true -> hex_value s = Some v ->
  v < 16 ^ Z.of_nat (String.length s) /\
  ((2 <= String.length s)%nat -> 16 ^ (Z.of_nat (String.length s) - 1) <= v).
Proof.
  destruct s as [|c s]; [discriminate|].
  intros U V. unfold hex_value in V.
  split; [apply (hex_value_from_bound _ _ V)|].
  intros L. cbn [hex_value_from] in V.
  destruct (digit_value c) as [d|] eqn:D; [|discriminate].
  rewrite hex_value_from_shift in V.
  destruct (hex_value_from 0 s) as [w|] eqn:E; [|discriminate].
  injection V as <-. pose proof (hex_value_from_bound s w E) as B.
  destruct s as [|c1 s1]; [simpl in L; lia|].
  cbn [unpadded] in U. apply negb_true_iff, Ascii.eqb_neq in U.
  assert (d <> 0).
  { intros ->. apply U. apply (digit_value_inj c "0"%char 0 D). reflexivity. }
  apply digit_value_range in D.
  replace (Z.of_nat (String.length (String c (String c1 s1))) - 1)
    with (Z.of_nat (String.length (String c1 s1))) by (cbn [String.length]; lia).
  nia.
Qed.

(** A number has one lowercase hexadecimal numeral without padding. *)
Lemma lower_hex_unique (v : Z) (s s' : string) :
  lower_hex_of v s -> lower_hex_of v s' -> s = s'.
Proof.
  intros [V U] [V' U'].
  destruct (unpadded_value_bounds s v U V) as [Hi Lo].
  destruct (unpadded_value_bounds s' v U' V') as [Hi' Lo'].
  assert (L : String.length s = String.length s').
  { destruct (Nat.lt_trichotomy (String.length s) (String.length s')) as [Lt | [E | Gt]];
      [exfalso | exact E | exfalso].
    - assert (16 ^ Z.of_nat (String.length s) <= 16 ^ (Z.of_nat (String.length s') - 1))
        by (apply Z.pow_le_mono_r; lia).
      assert (2 <= String.length s')%nat by (destruct s; [discriminate U | simpl in *; lia]).
      specialize (Lo' ltac:(assumption)). lia.
    - assert (16 ^ Z.of_nat (String.length s') <= 16 ^ (Z.of_nat (String.length s) - 1))
        by (apply Z.pow_le_mono_r; lia).
      assert (2 <= String.length s)%nat by (destruct s'; [discriminate U' | simpl in *; lia]).
      specialize (Lo ltac:(assumption)). lia. }
  destruct s as [|c s]; [discriminate U|]. destruct s' as [|c' s']; [discriminate U'|].
  unfold hex_value in V, V'. exact (hex_value_from_inj _ _ v L V V').
Qed.

(** A numeral contains no newline. *)
Lemma hex_value_from_no_newline (s : string) : forall a v,
  hex_value_from a s = Some v -> no_newline s = true.
Proof.
  induction s as [|c s IH]; intros a v; [reflexivity|].
  cbn [hex_value_from no_newline].
  destruct (digit_value c) as [d|] eqn:D; [|discriminate].
  intros V. rewrite (IH _ _ V), andb_true_r.
  apply negb_true_iff, Ascii.eqb_neq. intros ->. discriminate D.
Qed.

Lemma no_newline_append (a b : string) :
  no_newline (a ++ b) = no_newline a && no_newline b.
Proof. induction a as [|x a IH]; simpl; [reflexivity | now rewrite IH, andb_assoc]. Qed.

(** A text without newline, then a newline, is the first line of what it
    is followed by. *)
Lemma split_lines_line (s rest : string) :
  no_newline s = true ->
  split_lines (s ++ nl ++ rest) =
  (s :: fst (split_lines rest), snd (split_lines rest)).
Proof.
  induction s as [|c s IH]; intros N.
  - cbn [append nl split_lines]. destruct (split_lines rest) as [ls r]. reflexivity.
  - cbn [no_newline] in N. apply andb_true_iff in N as [Nc Ns].
    cbn [append split_lines]. rewrite (IH Ns).
    apply negb_true_iff in Nc. rewrite Nc. reflexivity.
Qed.

End HexFacts.

(* ================================================================== *)
(** ** The two semantics, and what the library can see of the host *)

Module ProgFacts.
Import Libc Prog.

Section AnyWorld.

Context {W : Type} (handle : call -> W -> W * Z).

(** The interpreter's run is a run of the step relation, to a final
    configuration. *)
Lemma steps_interp {A : Type} (m : prog A) : forall w,
  steps handle (m, w) (o_trace (interp handle m w))
        (Ret (o_value (interp handle m w)), o_world (interp handle m w)).
Proof.
  induction m as [a | c k IH]; intros w.
  - apply steps_nil.
  - cbn [interp]. destruct (handle c w) as [w' r] eqn:E. cbn.
    eapply steps_cons; [apply step_call, E | apply IH].
Qed.

(** A configuration has at most one successor. *)
Lemma step_deterministic {A : Type} (cfg : prog A * W) e1 cfg1 e2 cfg2 :
  step handle cfg e1 cfg1 -> step handle cfg e2 cfg2 -> e1 = e2 /\ cfg1 = cfg2.
Proof.
  intros S1 S2. inversion S1 as [c k w w1 r1 H1]; subst.
  inversion S2 as [c' k' w' w2 r2 H2]; subst.
  rewrite H1 in H2. injection H2 as -> ->. split; reflexivity.
Qed.

(** A body that has not returned can always take its next step: a call
    always comes back. *)
Lemma step_progress {A : Type} (cfg : prog A * W) :
  final cfg \/ exists e cfg', step handle cfg e cfg'.
Proof.
  destruct cfg as [[a | c k] w].
  - left. exists a. reflexivity.
  - right. destruct (handle c w) as [w' r] eqn:E.
    exists (c, r), (k r, w'). now apply step_call.
Qed.

Lemma final_no_step {A : Type} (cfg : prog A * W) e cfg' :
  final cfg -> ~ step handle cfg e cfg'.
Proof. intros [a F] S. inversion S; subst. discriminate F. Qed.

(** Every run of the step relation is a prefix of the interpreter's. *)
Lemma steps_prefix {A : Type} (m : prog A) : forall w t cfg,
  steps handle (m, w) t cfg ->
  exists t', o_trace (interp handle m w) = (t ++ t')%list.
Proof.
  induction m as [a | c k IH]; intros w t cfg R.
  - inversion R as [| ? ? ? ? ? S]; subst; [exists []; reflexivity|].
    inversion S.
  - inversion R as [| ? ? ? ? ? S R']; subst.
    + eexists. reflexivity.
    + inversion S as [? ? ? w' r E]; subst.
      cbn [interp]. rewrite E. cbn.
      destruct (IH r w' _ _ R') as [t' ->]. exists t'. reflexivity.
Qed.

(** Two complete runs from one configuration are the same run. *)
Lemma steps_final_unique {A : Type} (cfg : prog A * W) t1 c1 :
  steps handle cfg t1 c1 -> final c1 ->
  forall t2 c2, steps handle cfg t2 c2 -> final c2 -> t1 = t2 /\ c1 = c2.
Proof.
  induction 1 as [cfg | cfg e cfg' t cfg'' S R IH]; intros F t2 c2 R2 F2.
  - inversion R2 as [| ? ? ? ? ? S2]; subst; [auto|].
    exfalso. exact (final_no_step _ _ _ F S2).
  - inversion R2 as [| ? e2 cfg2 ? ? S2 R2']; subst.
    + exfalso. exact (final_no_step _ _ _ F2 S).
    + destruct (step_deterministic _ _ _ _ _ S S2) as [-> ->].
      destruct (IH F _ _ R2' F2) as [-> ->]. auto.
Qed.

End AnyWorld.

(** fprintf touches the two streams and nothing else of the host. *)
Lemma libc_frame (c : call) (h : host) :
  h_files (fst (libc c h)) = h_files h /\
  h_environ (fst (libc c h)) = h_environ h /\
  h_argv (fst (libc c h)) = h_argv h.
Proof.
  destruct c as [f fmt args]. cbn [libc].
  destruct (format fmt args); [destruct f|]; cbn; auto.
Qed.

(** What fprintf writes and returns depends on the host through the two
    streams only. *)
Lemma libc_reads_streams_only (c : call) (h1 h2 : host) :
  h_stdout h1 = h_stdout h2 -> h_stderr h1 = h_stderr h2 ->
  snd (libc c h1) = snd (libc c h2) /\
  h_stdout (fst (libc c h1)) = h_stdout (fst (libc c h2)) /\
  h_stderr (fst (libc c h1)) = h_stderr (fst (libc c h2)).
Proof.
  intros O E. destruct c as [f fmt args]. cbn [libc].
  destruct (format fmt args); [destruct f|]; cbn; rewrite ?O, ?E; auto.
Qed.

(** So no program over this library can tell two hosts apart that agree
    on the streams. *)
Lemma interp_reads_streams_only {A : Type} (m : prog A) : forall h1 h2,
  h_stdout h1 = h_stdout h2 -> h_stderr h1 = h_stderr h2 ->
  o_value (interp libc m h1) = o_value (interp libc m h2) /\
  o_trace (interp libc m h1) = o_trace (interp libc m h2) /\
  h_stdout (o_world (interp libc m h1)) = h_stdout (o_world (interp libc m h2)) /\
  h_stderr (o_world (interp libc m h1)) = h_stderr (o_world (interp libc m h2)).
Proof.
  induction m as [a | c k IH]; intros h1 h2 O E.
  - cbn. auto.
  - cbn [interp].
    destruct (libc_reads_streams_only c h1 h2 O E) as (R & O' & E').
    destruct (libc c h1) as [h1' r1]. destruct (libc c h2) as [h2' r2].
    cbn in R, O', E'. subst r2. cbn.
    destruct (IH r1 h1' h2' O' E') as (V & T & O'' & E'').
    rewrite T. auto.
Qed.

Lemma interp_frame {A : Type} (m : prog A) : forall h,
  h_files (o_world (interp libc m h)) = h_files h /\
  h_environ (o_world (interp libc m h)) = h_environ h /\
  h_argv (o_world (interp libc m h)) = h_argv h.
Proof.
  induction m as [a | c k IH]; intros h.
  - cbn. auto.
  - cbn [interp]. destruct (libc_frame c h) as (F & E & G).
    destruct (libc c h) as [h' r]. cbn in F, E, G |- *.
    destruct (IH r h') as (F' & E' & G'). rewrite F', E', G'. auto.
Qed.

End ProgFacts.

(* ================================================================== *)
(** ** The runs of main *)

Module ResolveFacts.
Import Libc Prog Resolve HexFacts ProgFacts.

Lemma hex_loop_length (fuel : nat) : forall v acc,
  (String.length (hex_loop fuel v acc) <= fuel + String.length acc)%nat /\
  (String.length acc + Nat.min 1 fuel <= String.length (hex_loop fuel v acc))%nat.
Proof.
  induction fuel as [|fuel IH]; intros v acc.
  - simpl. lia.
  - cbn [hex_loop]. destruct (v / 16 =? 0).
    + cbn [String.length]. lia.
    + destruct (IH (v / 16) (String (hex_digit (v mod 16)) acc)) as [Hi Lo].
      cbn [String.length] in Hi, Lo. lia.
Qed.

(** [%x] writes between one and eight digits. *)
Lemma fmt_x_length (v : Z) : (1 <= String.length (fmt_x v) <= 8)%nat.
Proof.
  unfold fmt_x. destruct (hex_loop_length 8 (to_uint v) "") as [Hi Lo].
  change (String.length "") with 0%nat in Hi, Lo. lia.
Qed.

(** What printf makes of the three format strings. *)
Lemma format_getxattr (v : Z) :
  format fmt_getxattr [v] = Some (line "FS_IOC_FSGETXATTR" (fmt_x v)).
Proof. reflexivity. Qed.

Lemma format_setxattr (v : Z) :
  format fmt_setxattr [v] = Some (line "FS_IOC_FSSETXATTR" (fmt_x v)).
Proof. reflexivity. Qed.

Lemma format_projinherit (v : Z) :
  format fmt_projinherit [v] = Some (line "FS_XFLAG_PROJINHERIT" (fmt_x v)).
Proof. reflexivity. Qed.

(** The run of [main] on a working library, in closed form. *)
Lemma run_outcome (p : platform) (h : host) :
  run p h =
  mkOutcome tt
    (mkHost (h_stdout h
               ++ line "FS_IOC_FSGETXATTR" (fmt_x (FS_IOC_FSGETXATTR p))
               ++ line "FS_IOC_FSSETXATTR" (fmt_x (FS_IOC_FSSETXATTR p))
               ++ line "FS_XFLAG_PROJINHERIT" (fmt_x (FS_XFLAG_PROJINHERIT p)))
            (h_stderr h) (h_files h) (h_environ h) (h_argv h))
    [ (Fprintf Stdout fmt_getxattr [FS_IOC_FSGETXATTR p],
       Z.of_nat (String.length
                   (line "FS_IOC_FSGETXATTR" (fmt_x (FS_IOC_FSGETXATTR p)))));
      (Fprintf Stdout fmt_setxattr [FS_IOC_FSSETXATTR p],
       Z.of_nat (String.length
                   (line "FS_IOC_FSSETXATTR" (fmt_x (FS_IOC_FSSETXATTR p)))));
      (Fprintf Stdout fmt_projinherit [FS_XFLAG_PROJINHERIT p],
       Z.of_nat (String.length
                   (line "FS_XFLAG_PROJINHERIT" (fmt_x (FS_XFLAG_PROJINHERIT p))))) ].
Proof.
  unfold run, main, printf. cbn [bind interp libc].
  rewrite format_getxattr, format_setxattr, format_projinherit.
  cbn [write_stream h_stdout h_stderr h_files h_environ h_argv
       o_value o_world o_trace].
  rewrite !append_assoc. reflexivity.
Qed.

(** Whatever the host answers, [main] makes its three calls in order. *)
Lemma main_calls_any_host (p : platform) (W : Type)
    (handle : call -> W -> W * Z) (w : W) :
  map fst (o_trace (interp handle (main p) w)) = main_calls p.
Proof.
  unfold main, printf, main_calls. cbn [bind interp].
  destruct (handle _ w) as [w1 r1]. cbn [bind interp].
  destruct (handle _ w1) as [w2 r2]. cbn [bind interp].
  destruct (handle _ w2) as [w3 r3]. reflexivity.
Qed.

(** The status byte of a small non-negative result is the result. *)
Lemma wait_status_small (n : Z) : 0 <= n < 256 -> wait_status n = n.
Proof.
  intros H. unfold wait_status. change 255 with (Z.ones 8).
  rewrite Z.land_ones by lia. now apply Z.mod_small.
Qed.

Lemma line_length (name digits : string) :
  String.length (line name digits) =
  (String.length name + 4 + String.length digits + 1)%nat.
Proof. unfold line. rewrite !length_append. simpl. lia. Qed.

(** A line of the output, seen by [split_lines]. *)
Lemma split_lines_printed (name : string) (v : Z) (rest : string) :
  no_newline name = true ->
  split_lines (line name (fmt_x v) ++ rest) =
  ((name ++ ": 0x" ++ fmt_x v)%string :: fst (split_lines rest), snd (split_lines rest)).
Proof.
  intros N. unfold line.
  replace ((name ++ ": 0x" ++ fmt_x v ++ nl) ++ rest)%string
    with ((name ++ ": 0x" ++ fmt_x v) ++ nl ++ rest)%string
    by (rewrite !append_assoc; reflexivity).
  apply split_lines_line. rewrite !no_newline_append, N.
  destruct (fmt_x_lower_hex v) as [V _].
  assert (no_newline (fmt_x v) = true) as ->; [|reflexivity].
  destruct (fmt_x v); [discriminate V|]. exact (hex_value_from_no_newline _ _ _ V).
Qed.

(** The events of a run of [main] on any host: its three calls, each with
    the int the host returned. *)
Lemma main_trace_any_host (p : platform) (W : Type)
    (handle : call -> W -> W * Z) (w : W) :
  exists r1 r2 r3,
    o_trace (interp handle (main p) w) =
    [ (Fprintf Stdout fmt_getxattr [FS_IOC_FSGETXATTR p], r1);
      (Fprintf Stdout fmt_setxattr [FS_IOC_FSSETXATTR p], r2);
      (Fprintf Stdout fmt_projinherit [FS_XFLAG_PROJINHERIT p], r3) ].
Proof.
  unfold main, printf. cbn [bind interp].
  destruct (handle _ w) as [w1 r1]. cbn [bind interp].
  destruct (handle _ w1) as [w2 r2]. cbn [bind interp].
  destruct (handle _ w2) as [w3 r3].
  exists r1, r2, r3. reflexivity.
Qed.

Lemma wait_status_mod (r : Z) : wait_status r = r mod 256.
Proof.
  unfold wait_status. change 255 with (Z.ones 8). now rewrite Z.land_ones by lia.
Qed.

(** The status of a run on a working library: the length of the third
    line. *)
Lemma exit_status_run (p : platform) (h : host) :
  exists n, exit_status (run p h) = Some n /\ 26 <= n <= 33.
Proof.
  rewrite run_outcome. unfold exit_status, void_main_status.
  cbn [o_trace rev app].
  pose proof (fmt_x_length (FS_XFLAG_PROJINHERIT p)) as L.
  pose proof (line_length "FS_XFLAG_PROJINHERIT" (fmt_x (FS_XFLAG_PROJINHERIT p))) as E.
  change (String.length "FS_XFLAG_PROJINHERIT") with 20%nat in E.
  eexists. split; [reflexivity|]. rewrite wait_status_small; lia.
Qed.

Lemma main_straight_line (p : platform) : straight_line (main p).
Proof.
  unfold main, printf. cbn [bind].
  repeat (apply sl_call; [reflexivity | cbn [bind]]).
  apply sl_ret.
Qed.

End ResolveFacts.

(* ================================================================== *)
(** ** The specification's claims *)

Module ResolveSpec.
Import Libc Prog Resolve HexFacts ProgFacts ResolveFacts.



(** C3, the claim as stated fails: in the specification's scenario the
    process exits with status 28, the length of the third line. *)
Lemma void_main_exit_status_is_not_zero :
  exit_status (start scenario [] [] fresh) = Some 28 /\
  exit_status (start scenario [] [] fresh) <> Some 0.
Proof. split; [reflexivity | discriminate]. Qed.

(** C3, amended.  Every run makes its three prints and then falls off the
    end of main, which is declared void and returns no status of its own:
    the status the process exits with is the result of the third printf,
    the number of bytes of the third line, between 26 and 33 and so never
    0. *)
Theorem void_main_exit_status (p : platform) (h : host) :
  o_value (run p h) = tt /\
  List.length (o_trace (run p h)) = 3%nat /\
  exit_status (run p h) =
    Some (Z.of_nat (String.length
            (line "FS_XFLAG_PROJINHERIT" (fmt_x (FS_XFLAG_PROJINHERIT p))))) /\
  (exists n, exit_status (run p h) = Some n /\ 26 <= n <= 33).
Proof.
  rewrite run_outcome. unfold exit_status. cbn [o_value o_trace List.length].
  pose proof (fmt_x_length (FS_XFLAG_PROJINHERIT p)) as L.
  pose proof (line_length "FS_XFLAG_PROJINHERIT" (fmt_x (FS_XFLAG_PROJINHERIT p))) as E.
  change (String.length "FS_XFLAG_PROJINHERIT") with 20%nat in E.
  assert (S : void_main_status
                [ (Fprintf Stdout fmt_getxattr [FS_IOC_FSGETXATTR p],
                   Z.of_nat (String.length
                     (line "FS_IOC_FSGETXATTR" (fmt_x (FS_IOC_FSGETXATTR p)))));
                  (Fprintf Stdout fmt_setxattr [FS_IOC_FSSETXATTR p],
                   Z.of_nat (String.length
                     (line "FS_IOC_FSSETXATTR" (fmt_x (FS_IOC_FSSETXATTR p)))));
                  (Fprintf Stdout fmt_projinherit [FS_XFLAG_PROJINHERIT p],
                   Z.of_nat (String.length
                     (line "FS_XFLAG_PROJINHERIT" (fmt_x (FS_XFLAG_PROJINHERIT p))))) ]
              = Some (Z.of_nat (String.length
                     (line "FS_XFLAG_PROJINHERIT" (fmt_x (FS_XFLAG_PROJINHERIT p)))))).
  { unfold void_main_status. cbn [rev app]. f_equal. apply wait_status_small. lia. }
  split; [reflexivity|]. split; [reflexivity|]. split; [exact S|].
  eexists. split; [exact S | lia].
Qed.

(** C4. Where the three constants are 0x5431, 0x5432 and 0x00000200, the
    program prints exactly the three lines of the scenario, each ended by
    a newline. *)
Theorem scenario_output (p : platform) (h : host) :
  FS_IOC_FSGETXATTR p = 0x5431 ->
  FS_IOC_FSSETXATTR p = 0x5432 ->
  FS_XFLAG_PROJINHERIT p = 0x00000200 ->
  h_stdout (o_world (run p h)) =
    (h_stdout h ++ "FS_IOC_FSGETXATTR: 0x5431" ++ nl
                ++ "FS_IOC_FSSETXATTR: 0x5432" ++ nl
                ++ "FS_XFLAG_PROJINHERIT: 0x200" ++ nl)%string.
Proof.
  intros E1 E2 E3. rewrite run_outcome, E1, E2, E3. reflexivity.
Qed.

Lemma scenario_output_fresh :
  FS_IOC_FSGETXATTR scenario = 0x5431 /\
  FS_IOC_FSSETXATTR scenario = 0x5432 /\
  FS_XFLAG_PROJINHERIT scenario = 0x00000200 /\
  h_stdout (o_world (run scenario fresh)) =
    (h_stdout fresh ++ "FS_IOC_FSGETXATTR: 0x5431" ++ nl
                    ++ "FS_IOC_FSSETXATTR: 0x5432" ++ nl
                    ++ "FS_XFLAG_PROJINHERIT: 0x200" ++ nl)%string.
Proof.
  split; [reflexivity|]. split; [reflexivity|]. split; [reflexivity|].
  apply (scenario_output scenario fresh); reflexivity.
Defined.

(** C5. Two runs of one build print the same whatever command line and
    environment each is given: the text on standard output, the text on
    standard error, the calls made with their results and the exit status
    do not depend on them. *)
Theorem output_ignores_arguments_and_environment
    (p : platform) (h : host)
    (argv argv' : list string) (envp envp' : list (string * string)) :
  h_stdout (o_world (start p argv envp h)) =
    h_stdout (o_world (start p argv' envp' h)) /\
  h_stderr (o_world (start p argv envp h)) =
    h_stderr (o_world (start p argv' envp' h)) /\
  o_trace (start p argv envp h) = o_trace (start p argv' envp' h) /\
  exit_status (start p argv envp h) = exit_status (start p argv' envp' h).
Proof.
  unfold start, run, exit_status.
  destruct (interp_reads_streams_only (main p)
              (mkHost (h_stdout h) (h_stderr h) (h_files h) envp argv)
              (mkHost (h_stdout h) (h_stderr h) (h_files h) envp' argv')
              eq_refl eq_refl) as (_ & T & O & E).
  rewrite T. auto.
Qed.

(** C6. Two runs of one build print the same bytes: whatever state each
    run starts in, what it appends to standard output is the same text. *)
Theorem repeated_runs_print_the_same
    (p : platform) (h1 h2 : host) (out1 out2 : string) :
  h_stdout (o_world (run p h1)) = (h_stdout h1 ++ out1)%string ->
  h_stdout (o_world (run p h2)) = (h_stdout h2 ++ out2)%string ->
  out1 = out2.
Proof.
  rewrite !run_outcome. cbn [o_world h_stdout]. intros E1 E2.
  apply append_inv_head in E1, E2. now rewrite <- E1, <- E2.
Qed.

Lemma repeated_runs_fresh_and_busy :
  h_stdout (o_world (run linux_fs_h fresh)) =
    (h_stdout fresh ++ "FS_IOC_FSGETXATTR: 0x801c581f" ++ nl
                    ++ "FS_IOC_FSSETXATTR: 0x401c5820" ++ nl
                    ++ "FS_XFLAG_PROJINHERIT: 0x200" ++ nl)%string /\
  h_stdout (o_world (run linux_fs_h busy)) =
    (h_stdout busy ++ line "FS_IOC_FSGETXATTR" "801c581f"
                   ++ line "FS_IOC_FSSETXATTR" "401c5820"
                   ++ line "FS_XFLAG_PROJINHERIT" "200")%string /\
  ("FS_IOC_FSGETXATTR: 0x801c581f" ++ nl
     ++ "FS_IOC_FSSETXATTR: 0x401c5820" ++ nl
     ++ "FS_XFLAG_PROJINHERIT: 0x200" ++ nl)%string =
  (line "FS_IOC_FSGETXATTR" "801c581f"
     ++ line "FS_IOC_FSSETXATTR" "401c5820"
     ++ line "FS_XFLAG_PROJINHERIT" "200")%string.
Proof.
  split; [reflexivity|]. split; [reflexivity|].
  apply (repeated_runs_print_the_same linux_fs_h fresh busy); reflexivity.
Defined.

(** C7. The program is one straight line: no continuation looks at a
    result, every path through it has three calls, and in every world,
    whatever the host does with the calls, the run reaches the end of main
    after exactly these three calls; a run can never be longer, never gets
    stuck before main has returned, and there is no other complete run. *)
Theorem main_is_straight_line_and_terminates
    (p : platform) (W : Type) (handle : call -> W -> W * Z) (w : W) :
  straight_line (main p) /\
  (forall rs, calls_along (main p) rs = 3%nat) /\
  steps handle (main p, w) (o_trace (interp handle (main p) w))
        (Ret tt, o_world (interp handle (main p) w)) /\
  List.length (o_trace (interp handle (main p) w)) = 3%nat /\
  (forall t cfg,
      steps handle (main p, w) t cfg ->
      (List.length t <= 3)%nat /\
      (final cfg \/ exists e cfg', step handle cfg e cfg') /\
      (final cfg ->
       t = o_trace (interp handle (main p) w) /\
       cfg = (Ret tt, o_world (interp handle (main p) w)))).
Proof.
  assert (R : steps handle (main p, w) (o_trace (interp handle (main p) w))
                    (Ret tt, o_world (interp handle (main p) w))).
  { pose proof (steps_interp handle (main p) w) as R.
    destruct (o_value (interp handle (main p) w)). exact R. }
  assert (L : List.length (o_trace (interp handle (main p) w)) = 3%nat).
  { pose proof (f_equal (@List.length call) (main_calls_any_host p W handle w)) as L.
    rewrite length_map in L. exact L. }
  split; [apply main_straight_line|].
  split; [intros [|r1 [|r2 [|r3 rs]]]; reflexivity|].
  split; [exact R|]. split; [exact L|].
  intros t cfg T. split; [|split].
  - destruct (steps_prefix handle (main p) w t cfg T) as [t' E].
    rewrite E, length_app in L. lia.
  - apply step_progress.
  - intros F.
    destruct (steps_final_unique handle _ _ _ T F _ _ R) as [-> ->];
      [exists tt; reflexivity | auto].
Qed.

(** C8. The program's only effect is the write to standard output: a run
    leaves standard error, the files, the environment and the command line
    as they were, keeps what standard output held and only appends to it,
    and makes no call on another stream.  The three constants are not
    state at all: they are compile-time values of the [platform], passed to
    printf by value. *)
Theorem main_only_writes_stdout (p : platform) (h : host) :
  h_stderr (o_world (run p h)) = h_stderr h /\
  h_files (o_world (run p h)) = h_files h /\
  h_environ (o_world (run p h)) = h_environ h /\
  h_argv (o_world (run p h)) = h_argv h /\
  (exists out, h_stdout (o_world (run p h)) = (h_stdout h ++ out)%string) /\
  Forall (fun e : event => call_stream (fst e) = Stdout) (o_trace (run p h)) /\
  map (fun e : event => match fst e with Fprintf _ _ args => args end)
      (o_trace (run p h)) =
    [ [FS_IOC_FSGETXATTR p]; [FS_IOC_FSSETXATTR p]; [FS_XFLAG_PROJINHERIT p] ].
Proof.
  rewrite run_outcome. cbn [o_world o_trace h_stdout h_stderr h_files h_environ h_argv].
  repeat (split; [reflexivity|]).
  split; [eexists; reflexivity|].
  split; [|reflexivity].
  repeat constructor.
Qed.


(** C10, the claim as stated fails: with the Linux constants on an
    unbuffered, closed standard output all three prints are attempted and
    each returns -1, and the process exits with status 255, where a
    successful run exits with 28. *)
Lemma failed_print_changes_the_exit_status :
  map fst (o_trace (interp libc_closed_unbuffered (main linux_fs_h) fresh)) =
    main_calls linux_fs_h /\
  map snd (o_trace (interp libc_closed_unbuffered (main linux_fs_h) fresh)) =
    [-1; -1; -1] /\
  exit_status (interp libc_closed_unbuffered (main linux_fs_h) fresh) = Some 255 /\
  exit_status (run linux_fs_h fresh) = Some 28.
Proof. repeat split. Qed.

(** C10, amended.  No result of a print is looked at: on every host on
    which the calls return, whatever they return, the run makes the same
    three printf calls in the same order, all on standard output, along a
    body without a branch.  The results reach the exit status only, which
    is the low byte of the third one: the status of a successful run where
    stdio buffers the text of a closed standard output and the calls return
    their byte counts, and 255, which no successful run has, where the
    stream is unbuffered and the third printf returns -1. *)
Theorem print_results_reach_only_the_exit_status
    (p : platform) (W : Type) (handle : call -> W -> W * Z) (w : W) (h : host) :
  map fst (o_trace (interp handle (main p) w)) = main_calls p /\
  Forall (fun c => call_stream c = Stdout) (main_calls p) /\
  straight_line (main p) /\
  (exists r1 r2 r3,
      map snd (o_trace (interp handle (main p) w)) = [r1; r2; r3] /\
      void_main_status (o_trace (interp handle (main p) w)) = Some (r3 mod 256)) /\
  exit_status (interp libc_closed_buffered (main p) h) = exit_status (run p h) /\
  exit_status (interp libc_closed_unbuffered (main p) h) = Some 255 /\
  exit_status (run p h) <> Some 255.
Proof.
  split; [apply main_calls_any_host|].
  split; [repeat constructor|].
  split; [apply main_straight_line|].
  split; [|split; [|split]].
  - destruct (main_trace_any_host p W handle w) as (r1 & r2 & r3 & ->).
    exists r1, r2, r3. split; [reflexivity|].
    unfold void_main_status. cbn [rev app]. now rewrite wait_status_mod.
  - rewrite run_outcome. unfold exit_status, main, printf.
    cbn [bind interp libc_closed_buffered call_stream libc snd].
    rewrite format_getxattr, format_setxattr, format_projinherit. reflexivity.
  - reflexivity.
  - destruct (exit_status_run p h) as (n & -> & B). intros [= ->]. lia.
Qed.

End ResolveSpec.

(* ================================================================== *)
(** ** Further properties of main *)

Module ResolveMore.
Import Libc Prog Resolve HexFacts ProgFacts ResolveFacts.





(** Two outputs are equal only if the digits on each line are. *)
Lemma printed_lines_inj (p p' : platform) :
  (line "FS_IOC_FSGETXATTR" (fmt_x (FS_IOC_FSGETXATTR p))
     ++ line "FS_IOC_FSSETXATTR" (fmt_x (FS_IOC_FSSETXATTR p))
     ++ line "FS_XFLAG_PROJINHERIT" (fmt_x (FS_XFLAG_PROJINHERIT p)))%string =
  (line "FS_IOC_FSGETXATTR" (fmt_x (FS_IOC_FSGETXATTR p'))
     ++ line "FS_IOC_FSSETXATTR" (fmt_x (FS_IOC_FSSETXATTR p'))
     ++ line "FS_XFLAG_PROJINHERIT" (fmt_x (FS_XFLAG_PROJINHERIT p')))%string ->
  fmt_x (FS_IOC_FSGETXATTR p) = fmt_x (FS_IOC_FSGETXATTR p') /\
  fmt_x (FS_IOC_FSSETXATTR p) = fmt_x (FS_IOC_FSSETXATTR p') /\
  fmt_x (FS_XFLAG_PROJINHERIT p) = fmt_x (FS_XFLAG_PROJINHERIT p').
Proof.
  intros E. apply (f_equal split_lines) in E.
  rewrite <- (append_nil_r (line "FS_XFLAG_PROJINHERIT" (fmt_x (FS_XFLAG_PROJINHERIT p)))),
    <- (append_nil_r (line "FS_XFLAG_PROJINHERIT" (fmt_x (FS_XFLAG_PROJINHERIT p')))) in E.
  rewrite !split_lines_printed in E by reflexivity.
  cbn [split_lines fst snd] in E. injection E as E1 E2 E3. auto.
Qed.

Lemma fmt_x_inj (v v' : Z) : fmt_x v = fmt_x v' -> to_uint v = to_uint v'.
Proof.
  intros E. destruct (fmt_x_lower_hex v) as [V _].
  destruct (fmt_x_lower_hex v') as [V' _]. rewrite E, V' in V. now injection V.
Qed.

Lemma same_output_same_uints (p p' : platform) (h : host) :
  h_stdout (o_world (run p h)) = h_stdout (o_world (run p' h)) ->
  to_uint (FS_IOC_FSGETXATTR p) = to_uint (FS_IOC_FSGETXATTR p') /\
  to_uint (FS_IOC_FSSETXATTR p) = to_uint (FS_IOC_FSSETXATTR p') /\
  to_uint (FS_XFLAG_PROJINHERIT p) = to_uint (FS_XFLAG_PROJINHERIT p').
Proof.
  rewrite !run_outcome. cbn [o_world h_stdout]. intros E.
  apply append_inv_head, printed_lines_inj in E. destruct E as (E1 & E2 & E3).
  auto using fmt_x_inj.
Qed.

(** X1. Two builds print the same text exactly when their constants agree
    modulo 2^32, the width at which [%x] converts. *)
Theorem same_output_iff_congruent (p p' : platform) (h : host) :
  h_stdout (o_world (run p h)) = h_stdout (o_world (run p' h)) <->
  (FS_IOC_FSGETXATTR p mod 2 ^ 32 = FS_IOC_FSGETXATTR p' mod 2 ^ 32 /\
   FS_IOC_FSSETXATTR p mod 2 ^ 32 = FS_IOC_FSSETXATTR p' mod 2 ^ 32 /\
   FS_XFLAG_PROJINHERIT p mod 2 ^ 32 = FS_XFLAG_PROJINHERIT p' mod 2 ^ 32).
Proof.
  split.
  - exact (same_output_same_uints p p' h).
  - intros (E1 & E2 & E3). rewrite !run_outcome. cbn [o_world h_stdout].
    unfold fmt_x, to_uint, UINT_BITS. now rewrite E1, E2, E3.
Qed.

(** X2. The output determines the constants: two sets of [unsigned int]
    constants that give the same output are the same. *)
Theorem output_determines_constants (p p' : platform) (h : host) :
  uint_platform p -> uint_platform p' ->
  h_stdout (o_world (run p h)) = h_stdout (o_world (run p' h)) ->
  p = p'.
Proof.
  intros (U1 & U2 & U3) (U1' & U2' & U3') E.
  destruct (same_output_same_uints p p' h E) as (E1 & E2 & E3).
  rewrite !to_uint_id in E1, E2, E3 by assumption.
  destruct p, p'; cbn in *; congruence.
Qed.

Lemma output_determines_linux_constants :
  uint_platform linux_fs_h /\
  uint_platform (mkPlatform 2149341215 1075599392 512) /\
  h_stdout (o_world (run linux_fs_h busy)) =
    h_stdout (o_world (run (mkPlatform 2149341215 1075599392 512) busy)) /\
  linux_fs_h = mkPlatform 2149341215 1075599392 512.
Proof.
  assert (U : uint_platform linux_fs_h)
    by (unfold uint_platform, uint_const, UINT_BITS; simpl; lia).
  assert (U' : uint_platform (mkPlatform 2149341215 1075599392 512))
    by (unfold uint_platform, uint_const, UINT_BITS; simpl; lia).
  split; [exact U|]. split; [exact U'|]. split; [reflexivity|].
  apply (output_determines_constants _ _ busy U U'). reflexivity.
Defined.



(** X5. On a working library no printf reports a failure: each returns the
    number of bytes of its line, 23 to 30 for the first two and 26 to 33
    for the third, and standard output grows by exactly their sum, 72 to
    93 bytes. *)
Theorem printf_results_and_output_size (p : platform) (h : host) :
  exists n1 n2 n3 : nat,
    map snd (o_trace (run p h)) = [Z.of_nat n1; Z.of_nat n2; Z.of_nat n3] /\
    (23 <= n1 <= 30)%nat /\ (23 <= n2 <= 30)%nat /\ (26 <= n3 <= 33)%nat /\
    String.length (h_stdout (o_world (run p h))) =
      (String.length (h_stdout h) + (n1 + n2 + n3))%nat.
Proof.
  rewrite run_outcome. cbn [o_trace o_world h_stdout map snd].
  pose proof (fmt_x_length (FS_IOC_FSGETXATTR p)) as L1.
  pose proof (fmt_x_length (FS_IOC_FSSETXATTR p)) as L2.
  pose proof (fmt_x_length (FS_XFLAG_PROJINHERIT p)) as L3.
  pose proof (line_length "FS_IOC_FSGETXATTR" (fmt_x (FS_IOC_FSGETXATTR p))) as E1.
  pose proof (line_length "FS_IOC_FSSETXATTR" (fmt_x (FS_IOC_FSSETXATTR p))) as E2.
  pose proof (line_length "FS_XFLAG_PROJINHERIT" (fmt_x (FS_XFLAG_PROJINHERIT p))) as E3.
  change (String.length "FS_IOC_FSGETXATTR") with 17%nat in E1.
  change (String.length "FS_IOC_FSSETXATTR") with 17%nat in E2.
  change (String.length "FS_XFLAG_PROJINHERIT") with 20%nat in E3.
  eexists _, _, _. split; [reflexivity|].
  rewrite !length_append. lia.
Qed.

(** X7. For constants that are [unsigned int] values, the text printed
    after [0x] on each line is, byte for byte, the lowercase hexadecimal
    numeral of the constant without leading zeros: that numeral exists,
    and whichever strings are such numerals of the three constants, the
    output is made of them. *)
Theorem printed_digits_are_the_hex_numerals (p : platform) (h : host) :
  uint_platform p ->
  (exists s1 s2 s3,
      lower_hex_of (FS_IOC_FSGETXATTR p) s1 /\
      lower_hex_of (FS_IOC_FSSETXATTR p) s2 /\
      lower_hex_of (FS_XFLAG_PROJINHERIT p) s3) /\
  (forall s1 s2 s3,
      lower_hex_of (FS_IOC_FSGETXATTR p) s1 ->
      lower_hex_of (FS_IOC_FSSETXATTR p) s2 ->
      lower_hex_of (FS_XFLAG_PROJINHERIT p) s3 ->
      h_stdout (o_world (run p h)) =
        (h_stdout h ++ line "FS_IOC_FSGETXATTR" s1
                    ++ line "FS_IOC_FSSETXATTR" s2
                    ++ line "FS_XFLAG_PROJINHERIT" s3)%string).
Proof.
  intros (U1 & U2 & U3).
  pose proof (fmt_x_lower_hex (FS_IOC_FSGETXATTR p)) as H1.
  pose proof (fmt_x_lower_hex (FS_IOC_FSSETXATTR p)) as H2.
  pose proof (fmt_x_lower_hex (FS_XFLAG_PROJINHERIT p)) as H3.
  rewrite to_uint_id in H1, H2, H3 by assumption.
  split; [eauto 6|].
  intros s1 s2 s3 L1 L2 L3.
  rewrite (lower_hex_unique _ _ _ L1 H1), (lower_hex_unique _ _ _ L2 H2),
    (lower_hex_unique _ _ _ L3 H3).
  rewrite run_outcome. reflexivity.
Qed.

Lemma printed_digits_linux :
  uint_platform linux_fs_h /\
  (exists s1 s2 s3,
      lower_hex_of (FS_IOC_FSGETXATTR linux_fs_h) s1 /\
      lower_hex_of (FS_IOC_FSSETXATTR linux_fs_h) s2 /\
      lower_hex_of (FS_XFLAG_PROJINHERIT linux_fs_h) s3) /\
  (forall s1 s2 s3,
      lower_hex_of (FS_IOC_FSGETXATTR linux_fs_h) s1 ->
      lower_hex_of (FS_IOC_FSSETXATTR linux_fs_h) s2 ->
      lower_hex_of (FS_XFLAG_PROJINHERIT linux_fs_h) s3 ->
      h_stdout (o_world (run linux_fs_h fresh)) =
        (h_stdout fresh ++ line "FS_IOC_FSGETXATTR" s1
                        ++ line "FS_IOC_FSSETXATTR" s2
                        ++ line "FS_XFLAG_PROJINHERIT" s3)%string).
Proof.
  assert (U : uint_platform linux_fs_h).
  { unfold uint_platform, uint_const, UINT_BITS; simpl; lia. }
  split; [exact U | exact (printed_digits_are_the_hex_numerals linux_fs_h fresh U)].
Defined.

(** X8. Whatever the constants, a run appends exactly three lines to
    standard output, by its three calls and no more: each is the name, a
    colon and a space, [0x], digits and a newline, in the order
    FS_IOC_FSGETXATTR, FS_IOC_FSSETXATTR, FS_XFLAG_PROJINHERIT, and the
    digits are the lowercase hexadecimal numeral without padding of the
    constant reduced modulo 2^32; the output of a fresh process splits into
    these three lines with nothing after the last newline. *)
Theorem three_lines_of_uint_numerals (p : platform) (h : host) :
  exists d1 d2 d3,
    lower_hex_of (FS_IOC_FSGETXATTR p mod 2 ^ 32) d1 /\
    lower_hex_of (FS_IOC_FSSETXATTR p mod 2 ^ 32) d2 /\
    lower_hex_of (FS_XFLAG_PROJINHERIT p mod 2 ^ 32) d3 /\
    h_stdout (o_world (run p h)) =
      (h_stdout h ++ line "FS_IOC_FSGETXATTR" d1
                  ++ line "FS_IOC_FSSETXATTR" d2
                  ++ line "FS_XFLAG_PROJINHERIT" d3)%string /\
    split_lines (h_stdout (o_world (run p fresh))) =
      ([ ("FS_IOC_FSGETXATTR: 0x" ++ d1)%string;
         ("FS_IOC_FSSETXATTR: 0x" ++ d2)%string;
         ("FS_XFLAG_PROJINHERIT: 0x" ++ d3)%string ], ""%string) /\
    map fst (o_trace (run p h)) = main_calls p.
Proof.
  exists (fmt_x (FS_IOC_FSGETXATTR p)), (fmt_x (FS_IOC_FSSETXATTR p)),
    (fmt_x (FS_XFLAG_PROJINHERIT p)).
  split; [exact (fmt_x_lower_hex (FS_IOC_FSGETXATTR p))|].
  split; [exact (fmt_x_lower_hex (FS_IOC_FSSETXATTR p))|].
  split; [exact (fmt_x_lower_hex (FS_XFLAG_PROJINHERIT p))|].
  rewrite !run_outcome. cbn [o_world o_trace h_stdout fresh map fst].
  split; [reflexivity|]. split; [|reflexivity].
  cbn [append].
  rewrite split_lines_printed by reflexivity.
  rewrite split_lines_printed by reflexivity.
  rewrite <- (append_nil_r (line "FS_XFLAG_PROJINHERIT" _)).
  rewrite split_lines_printed by reflexivity.
  reflexivity.
Qed.

End ResolveMore.
